(** * Shallow embedding of [app/agents/base_agents.py] (BaekhoBot agents)

    The tools, the four agents and the orchestrator of the multi-agent
    back end.  Python strings are modelled as [string]; exceptions are
    modelled by their message [str(e)]; the external collaborators
    (Qdrant, the embedding service, the chat controllers and the LLM) are
    an environment record whose calls either return a value or raise.
    Collaborator calls and tool invocations are recorded in a trace so
    that statements about "which tool is invoked" can be made. *)

From Stdlib Require Import String Ascii List ZArith Bool Lia PrimFloat.
Import ListNotations.
Open Scope string_scope.
Set Warnings "-register-all".

(** ** Python values *)

(** The message of a raised exception, as produced by [str(e)]. *)
Definition exn := string.

(** The Python values that flow through payloads and formatted results. *)
Inductive pyval : Type :=
| PNone
| PBool (b : bool)
| PInt (z : Z)
| PFloat (f : float)
| PStr (s : string)
| PList (l : list pyval)
| PDict (d : list (string * pyval)).

Fixpoint assoc (k : string) (d : list (string * pyval)) : option pyval :=
  match d with
  | [] => None
  | (k', v) :: d' => if String.eqb k k' then Some v else assoc k d'
  end.

(** [type(o).__name__] *)
Definition py_type_name (o : pyval) : string :=
  match o with
  | PNone => "NoneType"
  | PBool _ => "bool"
  | PInt _ => "int"
  | PFloat _ => "float"
  | PStr _ => "str"
  | PList _ => "list"
  | PDict _ => "dict"
  end.

(** [str(e)] of the [AttributeError] raised by [o.get] on a non-dict. *)
Definition attr_get_error (o : pyval) : exn :=
  "'" ++ py_type_name o ++ "' object has no attribute 'get'".

(** [obj.get(k, default)]: a dict answers, anything else raises
    [AttributeError]. *)
Definition py_get (o : pyval) (k : string) (default : pyval) : exn + pyval :=
  match o with
  | PDict d => match assoc k d with Some v => inr v | None => inr default end
  | _ => inl (attr_get_error o)
  end.

(** [sub in s] on strings: substring test. *)
Fixpoint py_in (sub s : string) : bool :=
  String.prefix sub s ||
  match s with
  | EmptyString => false
  | String _ s' => py_in sub s'
  end.

(** Strings are UTF-8 byte sequences, as Rocq's string literals are.  A
    continuation byte (10xxxxxx) does not start a code point. *)
Definition utf8_cont (c : ascii) : bool :=
  match c with Ascii _ _ _ _ _ _ b6 b7 => b7 && negb b6 end.

(** [len(s)]: the number of code points. *)
Fixpoint py_len (s : string) : nat :=
  match s with
  | EmptyString => 0
  | String c s' => if utf8_cont c then py_len s' else S (py_len s')
  end.

(** [s[:n]]: the first [n] code points, each with all its bytes. *)
Fixpoint py_slice_to (n : nat) (s : string) : string :=
  match s with
  | EmptyString => EmptyString
  | String c s' =>
    if utf8_cont c then String c (py_slice_to n s')
    else match n with
         | O => EmptyString
         | S n' => String c (py_slice_to n' s')
         end
  end.

(** [any(k in s for k in ks)] *)
Definition py_any_in (ks : list string) (s : string) : bool :=
  existsb (fun k => py_in k s) ks.

(** ASCII case mapping, used to run examples; every theorem below holds
    for an arbitrary [lower]. *)
Definition ascii_lower_char (c : ascii) : ascii :=
  let n := nat_of_ascii c in
  if (65 <=? n)%nat && (n <=? 90)%nat then ascii_of_nat (n + 32) else c.

Fixpoint ascii_lower (s : string) : string :=
  match s with
  | EmptyString => EmptyString
  | String c s' => String (ascii_lower_char c) (ascii_lower s')
  end.

Definition nl : string := String (ascii_of_nat 10) EmptyString.

(** ** Records returned by the collaborators *)

Record chat := mkChat { chat_id : Z }.

(** A message row; [fechaCreacion] is a datetime, represented by its
    timestamp, or [None]. *)
Record mensaje := mkMensaje {
  rol : string;
  contenido : string;
  fechaCreacion : option Z }.

(** ** Trace events *)

Inductive event : Type :=
(* tool invocations ([tool.handle()]) *)
| EvToolProduct (query : string) (category : option string) (max_results : Z)
| EvToolPromotion
| EvToolHistory (user_id : Z) (limit : Z)
(* collaborator calls *)
| EvQdrantNew
| EvEmbeddingNew
| EvEncode (text : string)
| EvSearch (vec : list float) (limit : Z) (filters : list (string * pyval))
| EvImportControllers
| EvChatCtlNew
| EvGetChats (user_id : Z)
| EvMsgCtlNew
| EvGetMensajes (chat : Z) (limit : Z) (offset : Z)
| EvLLM (prompt : string)
(* analytics *)
| EvTrack (user_msg : string) (bot_response : string).

Definition is_tool_event (ev : event) : bool :=
  match ev with
  | EvToolProduct _ _ _ | EvToolPromotion | EvToolHistory _ _ => true
  | _ => false
  end.

Definition is_track_event (ev : event) : bool :=
  match ev with EvTrack _ _ => true | _ => false end.

(** ** The collaborators *)

Record env := mkEnv {
  qdrant_new : exn + unit;                       (* QdrantService() *)
  embedding_new : exn + unit;                    (* import + EmbeddingService() *)
  encode_query : string -> exn + list float;
  search_similar : list float -> Z -> list (string * pyval) -> exn + list pyval;
  import_controllers : exn + unit;               (* the two controller imports *)
  chat_ctl_new : exn + unit;                     (* ChatController() *)
  get_chats_by_usuario : Z -> exn + list chat;
  mensaje_ctl_new : exn + unit;                  (* MensajeController() *)
  get_mensajes_by_chat : Z -> Z -> Z -> exn + list mensaje;
  llm_response_async : string -> exn + string }.

(** ** AnalyticsAgent counters ([self.conversation_metrics]) *)

Record metrics := mkMetrics {
  total_messages : Z;
  user_satisfaction : list string;
  conversion_indicators : list string }.

Definition metrics_init : metrics := mkMetrics 0 [] [].

(** ** The state threaded through an agent call and its monad *)

Record state := mkState { trace : list event; agent_metrics : metrics }.

Definition M (A : Type) : Type := state -> state * (exn + A).

Definition ret {A} (a : A) : M A := fun s => (s, inr a).

Definition bind {A B} (m : M A) (k : A -> M B) : M B :=
  fun s => match m s with
           | (s', inl e) => (s', inl e)
           | (s', inr a) => k a s'
           end.

Notation "x <- m ;; k" := (bind m (fun x => k))
  (at level 61, m at next level, right associativity).

(** [try: m / except Exception as e: h(e)]; effects of [m] before the
    raise are kept. *)
Definition try_except {A} (m : M A) (h : exn -> M A) : M A :=
  fun s => match m s with
           | (s', inl e) => h e s'
           | (s', inr a) => (s', inr a)
           end.

Definition emit (ev : event) : M unit :=
  fun s => (mkState (trace s ++ [ev])%list (agent_metrics s), inr tt).

(** A collaborator call: recorded, then returns or raises. *)
Definition call {A} (ev : event) (r : exn + A) : M A :=
  fun s => (mkState (trace s ++ [ev])%list (agent_metrics s), r).

Fixpoint mapM {A B} (f : A -> M B) (l : list A) : M (list B) :=
  match l with
  | [] => ret []
  | x :: l' => y <- f x ;; ys <- mapM f l' ;; ret (y :: ys)
  end.

Definition run {A} (m : M A) (s : state) : exn + A := snd (m s).

(** ** The Python object graph of [AnalyticsAgent.conversation_metrics]

    [get_metrics] returns [self.conversation_metrics.copy()].  To say what
    a caller can and cannot change through the returned dict, the dict and
    its two lists are modelled as heap objects with references. *)

Module PyHeap.

Inductive hval : Type :=
| HInt (z : Z)
| HStr (s : string)
| HRef (l : nat).

Inductive hobj : Type :=
| OList (xs : list hval)
| ODict (kvs : list (string * hval)).

(** Location [l] is the [l]-th allocated object. *)
Definition heap := list hobj.

Definition alloc (h : heap) (o : hobj) : heap * nat := ((h ++ [o])%list, length h).

Fixpoint heap_set (h : heap) (l : nat) (o : hobj) : heap :=
  match h, l with
  | [], _ => []
  | _ :: h', O => o :: h'
  | o' :: h', S l' => o' :: heap_set h' l' o
  end.

Fixpoint dict_lookup (kvs : list (string * hval)) (k : string) : option hval :=
  match kvs with
  | [] => None
  | (k', v) :: kvs' => if String.eqb k k' then Some v else dict_lookup kvs' k
  end.

(** [d[k] = v]: replaces the binding in place, or appends a new key. *)
Fixpoint dict_put (kvs : list (string * hval)) (k : string) (v : hval)
  : list (string * hval) :=
  match kvs with
  | [] => [(k, v)]
  | (k', v') :: kvs' =>
    if String.eqb k k' then (k', v) :: kvs' else (k', v') :: dict_put kvs' k v
  end.

(** [d[k]]; [None] is a [KeyError] or [TypeError]. *)
Definition getitem (h : heap) (d : nat) (k : string) : option hval :=
  match nth_error h d with
  | Some (ODict kvs) => dict_lookup kvs k
  | _ => None
  end.

Definition setitem (h : heap) (d : nat) (k : string) (v : hval) : option heap :=
  match nth_error h d with
  | Some (ODict kvs) => Some (heap_set h d (ODict (dict_put kvs k v)))
  | _ => None
  end.

Fixpoint dict_remove (kvs : list (string * hval)) (k : string) : list (string * hval) :=
  match kvs with
  | [] => []
  | (k', v') :: kvs' => if String.eqb k k' then kvs' else (k', v') :: dict_remove kvs' k
  end.

(** [del d[k]]; a missing key raises [KeyError] ([None]). *)
Definition delitem (h : heap) (d : nat) (k : string) : option heap :=
  match nth_error h d with
  | Some (ODict kvs) =>
    match dict_lookup kvs k with
    | Some _ => Some (heap_set h d (ODict (dict_remove kvs k)))
    | None => None
    end
  | _ => None
  end.

(** [xs.append(v)] *)
Definition list_append (h : heap) (l : nat) (v : hval) : option heap :=
  match nth_error h l with
  | Some (OList xs) => Some (heap_set h l (OList (xs ++ [v])%list))
  | _ => None
  end.

(** [AnalyticsAgent.__init__]: the [conversation_metrics] literal, the two
    empty lists, then the dict.  [super().__init__(config)] (langroid's
    [ChatAgent] constructor) is not part of this object graph: it builds the
    agent's own state, which no metrics reference reaches. *)
Definition analytics_init (h : heap) : heap * nat :=
  let (h1, ls) := alloc h (OList []) in
  let (h2, lc) := alloc h1 (OList []) in
  alloc h2 (ODict [("total_messages", HInt 0);
                   ("user_satisfaction", HRef ls);
                   ("conversion_indicators", HRef lc)]).

(** [get_metrics]: [dict.copy()] allocates a new dict holding the same
    values (the same references). *)
Definition get_metrics (h : heap) (m : nat) : option (heap * nat) :=
  match nth_error h m with
  | Some (ODict kvs) => Some (alloc h (ODict kvs))
  | _ => None
  end.

Fixpoint strs_of (xs : list hval) : option (list string) :=
  match xs with
  | [] => Some []
  | HStr s :: xs' => option_map (cons s) (strs_of xs')
  | _ :: _ => None
  end.

Definition read_strlist (h : heap) (v : option hval) : option (list string) :=
  match v with
  | Some (HRef l) =>
    match nth_error h l with
    | Some (OList xs) => strs_of xs
    | _ => None
    end
  | _ => None
  end.

(** The counters the agent at [m] holds, read through its references. *)
Definition read_metrics (h : heap) (m : nat) : option metrics :=
  match nth_error h m with
  | Some (ODict kvs) =>
    match dict_lookup kvs "total_messages",
          read_strlist h (dict_lookup kvs "user_satisfaction"),
          read_strlist h (dict_lookup kvs "conversion_indicators") with
    | Some (HInt t), Some sat, Some conv => Some (mkMetrics t sat conv)
    | _, _, _ => None
    end
  | _ => None
  end.

(** [h'] agrees with [h] on every location allocated in [h]. *)
Definition agree (h h' : heap) : Prop :=
  forall l, l < length h -> nth_error h' l = nth_error h l.

(** The shape [__init__] gives the metrics: a dict at [m] referring to two
    distinct lists at [ls] and [lc]. *)
Definition metrics_wf (h : heap) (m ls lc : nat) : Prop :=
  exists kvs, nth_error h m = Some (ODict kvs)
    /\ dict_lookup kvs "user_satisfaction" = Some (HRef ls)
    /\ dict_lookup kvs "conversion_indicators" = Some (HRef lc)
    /\ ls <> lc /\ ls <> m /\ lc <> m.

End PyHeap.

(** ** Concrete collaborators for running examples *)

(** A Qdrant with no matching documents, an embedding service returning a
    one-dimensional vector, an empty chat history and an LLM that answers
    "Hola". *)
Definition demo_env : env :=
  mkEnv (inr tt) (inr tt) (fun _ => inr [0%float]) (fun _ _ _ => inr [])
        (inr tt) (inr tt) (fun _ => inr []) (inr tt) (fun _ _ _ => inr [])
        (fun _ => inr "Hola").

(** The same, but the vector store is unreachable. *)
Definition demo_env_down : env :=
  mkEnv (inr tt) (inr tt) (fun _ => inr [0%float])
        (fun _ _ _ => inl "Connection refused")
        (inr tt) (inr tt) (fun _ => inr []) (inr tt) (fun _ _ _ => inr [])
        (fun _ => inr "Hola").

(** A user with two chats, the first one holding one message. *)
Definition demo_env_history : env :=
  mkEnv (inr tt) (inr tt) (fun _ => inr [0%float]) (fun _ _ _ => inr [])
        (inr tt) (inr tt) (fun _ => inr [mkChat 7; mkChat 3]) (inr tt)
        (fun c _ _ => if Z.eqb c 7 then inr [mkMensaje "user" "Hola" None] else inr [])
        (fun _ => inr "Hola").

(** The LLM is unreachable. *)
Definition demo_env_llm_down : env :=
  mkEnv (inr tt) (inr tt) (fun _ => inr [0%float]) (fun _ _ _ => inr [])
        (inr tt) (inr tt) (fun _ => inr []) (inr tt) (fun _ _ _ => inr [])
        (fun _ => inl "timeout").


(** A stand-in for [str(...)] of the formatted results. *)
Definition demo_repr (v : pyval) : string :=
  match v with PList [] => "[]" | _ => "[...]" end.

Definition demo_state : state := mkState [] metrics_init.

(** ** Tools, agents and orchestrator *)

Section Baekho.

(** Python's [str.lower]. *)
Variable lower : string -> string.
(** Python's [str(...)] of a list of dicts (the formatted results). *)
Variable py_repr : pyval -> string.
(** [datetime.isoformat()] *)
Variable isoformat : Z -> string.
(** The collaborators. *)
Variable E : env.

(** *** ProductSearchTool *)

Record ProductSearchTool := mkProductSearchTool {
  query : string;
  category : option string;   (* default None *)
  max_results : Z }.           (* default 5 *)

Definition no_products_msg : string :=
  "No se encontraron productos que coincidan con tu búsqueda.".

Definition product_error_prefix : string := "Error ejecutando búsqueda: ".

(** [if self.category: filters["categoria"] = self.category]; the empty
    string is falsy. *)
Definition product_filters (category : option string) : list (string * pyval) :=
  match category with
  | Some c => if String.eqb c "" then [] else [("categoria", PStr c)]
  | None => []
  end.

Definition format_product (result : pyval) : M pyval :=
  fun s =>
    (s, match py_get result "payload" (PDict []) with
        | inl e => inl e
        | inr payload =>
          match py_get result "score" (PInt 0),
                py_get payload "nombre" (PStr "N/A"),
                py_get payload "descripcion" (PStr "N/A"),
                py_get payload "precio" (PStr "N/A"),
                py_get payload "categoria" (PStr "N/A"),
                py_get payload "disponible" (PBool true),
                py_get payload "stock" (PInt 0) with
          | inr score, inr n, inr d, inr p, inr c, inr a, inr st =>
            inr (PDict [("nombre", n); ("descripcion", d); ("precio", p);
                        ("categoria", c); ("disponible", a); ("stock", st);
                        ("relevance_score", score)])
          | inl e, _, _, _, _, _, _ | _, inl e, _, _, _, _, _
          | _, _, inl e, _, _, _, _ | _, _, _, inl e, _, _, _
          | _, _, _, _, inl e, _, _ | _, _, _, _, _, inl e, _
          | _, _, _, _, _, _, inl e => inl e
          end
        end).

(** The body of the [try] block of [ProductSearchTool.handle]. *)
Definition product_search_body (t : ProductSearchTool) : M string :=
  _ <- call EvQdrantNew (qdrant_new E) ;;
  _ <- call EvEmbeddingNew (embedding_new E) ;;
  qe <- call (EvEncode (query t)) (encode_query E (query t)) ;;
  let filters := product_filters (category t) in
  results <- call (EvSearch qe (max_results t) filters)
                  (search_similar E qe (max_results t) filters) ;;
  match results with
  | [] => ret no_products_msg
  | _ :: _ => fr <- mapM format_product results ;; ret (py_repr (PList fr))
  end.

Definition product_search_handle (t : ProductSearchTool) : M string :=
  try_except (product_search_body t)
             (fun e => ret (product_error_prefix ++ e)).

(** *** PromotionSearchTool *)

Definition no_promotions_msg : string := "No hay promociones activas en este momento.".

Definition promotion_error_prefix : string := "Error obteniendo promociones: ".

Definition promotion_filters : list (string * pyval) :=
  [("type", PStr "promocion"); ("activa", PBool true)].

(** [[0.0] * 384] *)
Definition neutral_vector : list float := repeat 0%float 384.

Definition format_promotion (result : pyval) : M pyval :=
  fun s =>
    (s, match py_get result "payload" (PDict []) with
        | inl e => inl e
        | inr payload =>
          match py_get payload "descripcion" (PStr "N/A"),
                py_get payload "descuento" (PInt 0),
                py_get payload "productos_nombres" (PStr "N/A"),
                py_get payload "fecha_fin" (PStr "N/A") with
          | inr d, inr dc, inr p, inr f =>
            inr (PDict [("descripcion", d); ("descuento", dc);
                        ("productos", p); ("fecha_fin", f)])
          | inl e, _, _, _ | _, inl e, _, _ | _, _, inl e, _ | _, _, _, inl e => inl e
          end
        end).

Definition promotion_search_body : M string :=
  _ <- call EvQdrantNew (qdrant_new E) ;;
  results <- call (EvSearch neutral_vector 10 promotion_filters)
                  (search_similar E neutral_vector 10 promotion_filters) ;;
  match results with
  | [] => ret no_promotions_msg
  | _ :: _ => ps <- mapM format_promotion results ;; ret (py_repr (PList ps))
  end.

Definition promotion_search_handle : M string :=
  try_except promotion_search_body
             (fun e => ret (promotion_error_prefix ++ e)).

(** *** UserHistoryTool *)

Record UserHistoryTool := mkUserHistoryTool {
  user_id : Z;
  limit : Z }.                 (* default 10 *)

Definition no_history_msg : string := "Usuario sin historial previo".

Definition history_error_prefix : string := "Error obteniendo historial: ".

Definition format_mensaje (m : mensaje) : pyval :=
  PDict [("rol", PStr (rol m));
         ("contenido", PStr (py_slice_to 200 (contenido m)));
         ("fecha", match fechaCreacion m with
                   | Some d => PStr (isoformat d)
                   | None => PNone
                   end)].

Definition user_history_body (t : UserHistoryTool) : M string :=
  _ <- call EvImportControllers (import_controllers E) ;;
  _ <- call EvChatCtlNew (chat_ctl_new E) ;;
  user_chats <- call (EvGetChats (user_id t)) (get_chats_by_usuario E (user_id t)) ;;
  match user_chats with
  | [] => ret no_history_msg
  | latest_chat :: _ =>
    _ <- call EvMsgCtlNew (mensaje_ctl_new E) ;;
    recent <- call (EvGetMensajes (chat_id latest_chat) (limit t) 0)
                   (get_mensajes_by_chat E (chat_id latest_chat) (limit t) 0) ;;
    ret (py_repr (PList (map format_mensaje recent)))
  end.

Definition user_history_handle (t : UserHistoryTool) : M string :=
  try_except (user_history_body t)
             (fun e => ret (history_error_prefix ++ e)).

(** *** KnowledgeAgent.handle_message_fallback *)

Definition promotion_keywords : list string := ["promocion"; "descuento"; "oferta"].

Definition knowledge_error_msg : string :=
  "Lo siento, hubo un error accediendo a la base de conocimiento.".

Definition knowledge_handle_message_fallback (msg : string) : M string :=
  try_except
    (if py_in "promocion" (lower msg) || py_in "descuento" (lower msg)
        || py_in "oferta" (lower msg)
     then _ <- emit EvToolPromotion ;; promotion_search_handle
     else let t := mkProductSearchTool msg None 5 in
          _ <- emit (EvToolProduct (query t) (category t) (max_results t)) ;;
          product_search_handle t)
    (fun _ => ret knowledge_error_msg).

(** *** SalesAgent.handle_message_fallback

    Nothing in the [try] block can raise on a [str], so the handler of
    the source ("Error en análisis de ventas") is unreachable. *)

Definition sales_uniforme : string := "¿Has considerado también un cinturón o protecciones?".
Definition sales_cinturon : string := "¿Te interesaría ver nuestros uniformes a juego?".
Definition sales_proteccion : string := "¿Necesitas también guantes o espinilleras?".
Definition sales_prefix : string := "Sugerencias adicionales: ".
Definition sales_filler : string := "Continuando con la conversación...".

Definition sales_handle_message_fallback (msg : string) : string :=
  let recommendations :=
    if py_in "uniforme" (lower msg) then [sales_uniforme]
    else if py_in "cinturon" (lower msg) then [sales_cinturon]
    else if py_in "proteccion" (lower msg) then [sales_proteccion]
    else [] in
  match recommendations with
  | _ :: _ => sales_prefix ++ String.concat " " recommendations
  | [] => sales_filler
  end.

(** *** AnalyticsAgent *)

Definition positive_indicators : list string := ["gracias"; "perfecto"; "excelente"; "me gusta"].
Definition conversion_keywords : list string := ["comprar"; "precio"; "disponible"; "stock"].

Definition track_conversation (user_msg bot_response : string) (m : metrics) : metrics :=
  let total := (total_messages m + 1)%Z in
  let sat := if py_any_in positive_indicators (lower user_msg)
             then (user_satisfaction m ++ ["positive"])%list else user_satisfaction m in
  let conv := if py_any_in conversion_keywords (lower user_msg)
              then (conversion_indicators m ++ [py_slice_to 50 user_msg])%list
              else conversion_indicators m in
  mkMetrics total sat conv.

(** [self.analytics_agent.track_conversation(...)] inside the orchestrator. *)
Definition track_m (user_msg bot_response : string) : M unit :=
  fun s => (mkState (trace s ++ [EvTrack user_msg bot_response])%list
                    (track_conversation user_msg bot_response (agent_metrics s)),
            inr tt).

(** *** MainBaekhoAgent.handle_user_message *)

Definition ind12 : string := "            ".

Definition context_prompt (message knowledge_response sales_response : string) : string :=
  nl ++ ind12 ++ "Consulta del usuario: " ++ message ++ nl
  ++ ind12 ++ nl
  ++ ind12 ++ "Información de productos encontrada:" ++ nl
  ++ ind12 ++ knowledge_response ++ nl
  ++ ind12 ++ nl
  ++ ind12 ++ "Recomendaciones de ventas:" ++ nl
  ++ ind12 ++ sales_response ++ nl
  ++ ind12 ++ nl
  ++ ind12 ++ "Basándote en esta información, proporciona una respuesta completa y útil al usuario." ++ nl
  ++ ind12 ++ "Mantén el tono amigable y comercial de BaekhoBot 🥋." ++ nl
  ++ ind12.

Definition apology_msg : string :=
  "Lo siento, hubo un error procesando tu consulta. Por favor intenta de nuevo.".

(** The body of the [try] block of [handle_user_message]. *)
Definition handle_user_message_body (message : string) : M string :=
  _ <- track_m message "" ;;
  knowledge_response <- knowledge_handle_message_fallback message ;;
  let sales_response := sales_handle_message_fallback message in
  let prompt := context_prompt message knowledge_response sales_response in
  final_response <- call (EvLLM prompt) (llm_response_async E prompt) ;;
  _ <- track_m message final_response ;;
  ret final_response.

(** [user_id] and [conversation_context] are unused by the source. *)
Definition handle_user_message (message : string) : M string :=
  try_except (handle_user_message_body message) (fun _ => ret apology_msg).

(** *** Auxiliary definitions for the statements *)

(** The rule table of the spec (section 9): keyword, suggestion, in
    priority order; the first keyword contained in the message wins. *)
Definition sales_rule_table : list (string * string) :=
  [("uniforme", sales_uniforme); ("cinturon", sales_cinturon);
   ("proteccion", sales_proteccion)].

Fixpoint first_match (tbl : list (string * string)) (s : string) : option string :=
  match tbl with
  | [] => None
  | (k, sug) :: tbl' => if py_in k s then Some sug else first_match tbl' s
  end.

(** A sequence of [track_conversation] calls. *)
Definition track_all (calls : list (string * string)) (m : metrics) : metrics :=
  fold_left (fun m' c => track_conversation (fst c) (snd c) m') calls m.

(** The invariant of C10 on the counters. *)
Definition metrics_inv (m : metrics) : Prop :=
  (Z.of_nat (length (user_satisfaction m)) <= total_messages m)%Z /\
  (Z.of_nat (length (conversion_indicators m)) <= total_messages m)%Z /\
  Forall (fun x => py_len x <= 50) (conversion_indicators m).

Definition count_tools (tr : list event) : nat := length (filter is_tool_event tr).

(** [m] leaves the counters alone and only appends events satisfying [P]. *)
Definition logs_only {A} (P : event -> bool) (m : M A) : Prop :=
  forall s, agent_metrics (fst (m s)) = agent_metrics s /\
            exists tail, trace (fst (m s)) = (trace s ++ tail)%list
                         /\ forallb P tail = true.

(** [m] never lets an exception escape. *)
Definition never_raises {A} (m : M A) : Prop :=
  forall s, exists a, snd (m s) = inr a.

Definition tool_event_ok (ev : event) : bool :=
  negb (is_tool_event ev) && negb (is_track_event ev).

Definition is_llm_event (ev : event) : bool :=
  match ev with EvLLM _ => true | _ => false end.

Definition count_llm (tr : list event) : nat := length (filter is_llm_event tr).

(** Events a tool's [handle()] may add: collaborator calls only. *)
Definition tool_step_ok (ev : event) : bool :=
  negb (is_tool_event ev) && negb (is_track_event ev) && negb (is_llm_event ev).

(** A search result the formatting loops accept: a dict whose "payload",
    if present, is a dict (anything else makes [.get] raise). *)
Definition payload_ok (r : pyval) : bool :=
  match r with
  | PDict d => match assoc "payload" d with
               | None | Some (PDict _) => true
               | Some _ => false
               end
  | _ => false
  end.

(** [str(e)] when formatting the result [r] fails: [r.get] raises on a
    non-dict result, [payload.get] on a non-dict payload. *)
Definition format_error (r : pyval) : exn :=
  match r with
  | PDict d => match assoc "payload" d with
               | Some p => attr_get_error p
               | None => attr_get_error (PDict [])
               end
  | _ => attr_get_error r
  end.

(** [AnalyticsAgent.track_conversation] on the object graph: [+= 1] on the
    dict entry, [.append] on the lists the dict refers to.  [None] stands
    for a [KeyError] or [TypeError] on a malformed graph. *)
Definition track_conversation_heap (h : PyHeap.heap) (m : nat) (user_msg bot_response : string)
  : option PyHeap.heap :=
  match PyHeap.getitem h m "total_messages" with
  | Some (PyHeap.HInt t) =>
    match PyHeap.setitem h m "total_messages" (PyHeap.HInt (t + 1)) with
    | Some h1 =>
      match (if py_any_in positive_indicators (lower user_msg) then
               match PyHeap.getitem h1 m "user_satisfaction" with
               | Some (PyHeap.HRef l) => PyHeap.list_append h1 l (PyHeap.HStr "positive")
               | _ => None
               end
             else Some h1) with
      | Some h2 =>
        if py_any_in conversion_keywords (lower user_msg) then
          match PyHeap.getitem h2 m "conversion_indicators" with
          | Some (PyHeap.HRef l) =>
            PyHeap.list_append h2 l (PyHeap.HStr (py_slice_to 50 user_msg))
          | _ => None
          end
        else Some h2
      | None => None
      end
    | None => None
    end
  | _ => None
  end.

(** ** Proofs *)

Lemma logs_only_ret {A} P (a : A) : logs_only P (ret a).
Proof. intro s. split; [reflexivity|]. exists []. rewrite app_nil_r. auto. Qed.

Lemma logs_only_bind {A B} P (m : M A) (k : A -> M B) :
  logs_only P m -> (forall a, logs_only P (k a)) -> logs_only P (bind m k).
Proof.
  intros Hm Hk s. unfold bind. specialize (Hm s).
  destruct (m s) as [s1 [e|a]]; simpl in *; [exact Hm|].
  destruct Hm as [Hmet [t1 [Ht1 Hp1]]].
  destruct (Hk a s1) as [Hmet2 [t2 [Ht2 Hp2]]].
  split; [congruence|]. exists (t1 ++ t2)%list.
  rewrite Ht2, Ht1, app_assoc. split; [reflexivity|].
  rewrite forallb_app, Hp1, Hp2. reflexivity.
Qed.

Lemma logs_only_try {A} P (m : M A) (h : exn -> M A) :
  logs_only P m -> (forall e, logs_only P (h e)) -> logs_only P (try_except m h).
Proof.
  intros Hm Hh s. unfold try_except. specialize (Hm s).
  destruct (m s) as [s1 [e|a]]; simpl in *; [|exact Hm].
  destruct Hm as [Hmet [t1 [Ht1 Hp1]]].
  destruct (Hh e s1) as [Hmet2 [t2 [Ht2 Hp2]]].
  split; [congruence|]. exists (t1 ++ t2)%list.
  rewrite Ht2, Ht1, app_assoc. split; [reflexivity|].
  rewrite forallb_app, Hp1, Hp2. reflexivity.
Qed.

Lemma logs_only_call {A} P ev (r : exn + A) : P ev = true -> logs_only P (call ev r).
Proof. intros Hev s. split; [reflexivity|]. exists [ev]. simpl. rewrite Hev. auto. Qed.

Lemma logs_only_emit P ev : P ev = true -> logs_only P (emit ev).
Proof. intros Hev s. split; [reflexivity|]. exists [ev]. simpl. rewrite Hev. auto. Qed.

Lemma logs_only_mapM {A B} P (f : A -> M B) (l : list A) :
  (forall a, logs_only P (f a)) -> logs_only P (mapM f l).
Proof.
  intros Hf. induction l as [|x l IH]; simpl.
  - apply logs_only_ret.
  - apply logs_only_bind; [apply Hf|]. intros y.
    apply logs_only_bind; [exact IH|]. intros ys. apply logs_only_ret.
Qed.

Lemma logs_only_weaken {A} (P Q : event -> bool) (m : M A) :
  (forall ev, P ev = true -> Q ev = true) -> logs_only P m -> logs_only Q m.
Proof.
  intros HPQ Hm s. destruct (Hm s) as [Hmet [t [Ht Hp]]].
  split; [exact Hmet|]. exists t. split; [exact Ht|].
  apply forallb_forall. intros ev Hin. apply HPQ.
  exact (proj1 (forallb_forall P t) Hp ev Hin).
Qed.

Lemma logs_only_pure {A} P (f : exn + A) : logs_only P (fun s => (s, f)).
Proof. intro s. split; [reflexivity|]. exists []. rewrite app_nil_r. auto. Qed.

Lemma never_raises_try {A} (m : M A) (f : exn -> A) :
  never_raises (try_except m (fun e => ret (f e))).
Proof.
  intro s. unfold try_except. destruct (m s) as [s1 [e|a]]; simpl; eauto.
Qed.

Create HintDb tools.
#[local] Hint Resolve logs_only_ret logs_only_bind logs_only_try logs_only_call
  logs_only_emit logs_only_mapM logs_only_pure : tools.
#[local] Hint Extern 1 (_ = true) => reflexivity : tools.

Lemma product_search_handle_logs t : logs_only tool_event_ok (product_search_handle t).
Proof.
  unfold product_search_handle, product_search_body.
  apply logs_only_try; [|auto with tools].
  repeat (apply logs_only_bind; [auto with tools|intro]).
  destruct a2; [auto with tools|].
  apply logs_only_bind; [apply logs_only_mapM; intro; apply logs_only_pure|auto with tools].
Qed.

Lemma promotion_search_handle_logs : logs_only tool_event_ok promotion_search_handle.
Proof.
  unfold promotion_search_handle, promotion_search_body.
  apply logs_only_try; [|auto with tools].
  repeat (apply logs_only_bind; [auto with tools|intro]).
  destruct a0; [auto with tools|].
  apply logs_only_bind; [apply logs_only_mapM; intro; apply logs_only_pure|auto with tools].
Qed.



Lemma never_raises_product t : never_raises (product_search_handle t).
Proof. apply never_raises_try. Qed.

Lemma never_raises_promotion : never_raises promotion_search_handle.
Proof. apply never_raises_try. Qed.

Lemma never_raises_history t : never_raises (user_history_handle t).
Proof. apply never_raises_try. Qed.

Lemma py_any_in3 a b c x : py_any_in [a; b; c] x = py_in a x || py_in b x || py_in c x.
Proof.
  unfold py_any_in. simpl.
  destruct (py_in a x), (py_in b x), (py_in c x); reflexivity.
Qed.

Lemma count_tools_app l1 l2 : count_tools (l1 ++ l2) = count_tools l1 + count_tools l2.
Proof. unfold count_tools. rewrite filter_app, length_app. reflexivity. Qed.

Lemma count_tools_ok tail : forallb tool_event_ok tail = true -> count_tools tail = 0.
Proof.
  induction tail as [|ev tl IH]; [reflexivity|].
  destruct ev; simpl; try discriminate; exact IH.
Qed.

(** A [try] around a tool invocation whose [handle] never raises: the
    handler is dead and the result is the tool's. *)
Lemma try_emit_total {A} ev (t : M A) h s :
  never_raises t ->
  try_except (_ <- emit ev ;; t) h s = t (mkState (trace s ++ [ev])%list (agent_metrics s)).
Proof.
  intros Ht. unfold try_except, bind, emit.
  destruct (Ht (mkState (trace s ++ [ev])%list (agent_metrics s))) as [a Ha].
  destruct (t _) as [s' r]. simpl in Ha. subst r. reflexivity.
Qed.

(** C1: [KnowledgeAgent.handle_message_fallback] invokes exactly one tool:
    PromotionSearchTool when the lowercased message contains "promocion",
    "descuento" or "oferta", ProductSearchTool with the raw message as
    query otherwise; its result and effects are exactly those of that
    tool's [handle()]. *)
Theorem knowledge_fallback_invokes_one_tool (msg : string) (s : state) :
  let promo := py_any_in promotion_keywords (lower msg) in
  let ev := if promo then EvToolPromotion else EvToolProduct msg None 5 in
  let tool := if promo then promotion_search_handle
              else product_search_handle (mkProductSearchTool msg None 5) in
  knowledge_handle_message_fallback msg s
    = tool (mkState (trace s ++ [ev])%list (agent_metrics s))
  /\ count_tools (trace (fst (knowledge_handle_message_fallback msg s)))
     = S (count_tools (trace s)).
Proof.
  unfold knowledge_handle_message_fallback, promotion_keywords.
  cbv zeta. cbn [query category max_results]. rewrite py_any_in3.
  destruct (py_in "promocion" (lower msg) || py_in "descuento" (lower msg)
            || py_in "oferta" (lower msg)).
  - rewrite try_emit_total by apply never_raises_promotion.
    split; [reflexivity|].
    destruct (promotion_search_handle_logs
                (mkState (trace s ++ [EvToolPromotion])%list (agent_metrics s)))
      as [_ [tail [Ht Hp]]].
    rewrite Ht. simpl. rewrite !count_tools_app, (count_tools_ok tail Hp).
    change (count_tools [_]) with 1. lia.
  - rewrite try_emit_total by apply never_raises_product.
    split; [reflexivity|].
    destruct (product_search_handle_logs (mkProductSearchTool msg None 5)
                (mkState (trace s ++ [EvToolProduct msg None 5])%list (agent_metrics s)))
      as [_ [tail [Ht Hp]]].
    rewrite Ht. simpl. rewrite !count_tools_app, (count_tools_ok tail Hp).
    change (count_tools [_]) with 1. lia.
Qed.

(** C2: [SalesAgent.handle_message_fallback] follows the rule table
    uniforme, cinturon, proteccion with the first contained keyword
    winning: one suggestion behind "Sugerencias adicionales: ", or the
    filler when no keyword matches; the result starts with
    "Sugerencias adicionales:" exactly when a keyword is contained in the
    lowercased message. *)
Theorem sales_fallback_first_match (msg : string) :
  sales_handle_message_fallback msg =
    match first_match sales_rule_table (lower msg) with
    | Some sug => sales_prefix ++ sug
    | None => sales_filler
    end
  /\ (String.prefix "Sugerencias adicionales:" (sales_handle_message_fallback msg) = true
      <-> py_any_in ["uniforme"; "cinturon"; "proteccion"] (lower msg) = true).
Proof.
  rewrite py_any_in3. unfold sales_handle_message_fallback, sales_rule_table. simpl.
  destruct (py_in "uniforme" (lower msg)), (py_in "cinturon" (lower msg)),
           (py_in "proteccion" (lower msg)); simpl;
    (split; [reflexivity|]); vm_compute; tauto.
Qed.

Lemma py_slice_to_len n u : py_len (py_slice_to n u) = Nat.min n (py_len u).
Proof.
  revert n. induction u as [|c u IH]; intros n; simpl; [destruct n; reflexivity|].
  destruct (utf8_cont c) eqn:Hc; simpl.
  - rewrite Hc. apply IH.
  - destruct n as [|n]; simpl; [reflexivity|]. rewrite Hc, IH. reflexivity.
Qed.

Lemma py_slice_to_prefix n u : String.prefix (py_slice_to n u) u = true.
Proof.
  revert n. induction u as [|c u IH]; intros n; simpl; [reflexivity|].
  destruct (utf8_cont c); [|destruct n as [|n]]; simpl; try reflexivity;
    destruct (ascii_dec c c) as [_|Hc]; try contradiction; apply IH.
Qed.

(** C4: one call of [track_conversation] adds exactly 1 to
    [total_messages]; appends "positive" exactly when the lowercased
    message contains a positive indicator; appends the first (at most) 50
    characters of the message exactly when it contains a conversion
    keyword. *)
Theorem track_conversation_updates (u r : string) (m : metrics) :
  let m' := track_conversation u r m in
  total_messages m' = (total_messages m + 1)%Z
  /\ (py_any_in positive_indicators (lower u) = true ->
      user_satisfaction m' = (user_satisfaction m ++ ["positive"])%list)
  /\ (py_any_in positive_indicators (lower u) = false ->
      user_satisfaction m' = user_satisfaction m)
  /\ (py_any_in conversion_keywords (lower u) = true ->
      exists snip, conversion_indicators m' = (conversion_indicators m ++ [snip])%list
                   /\ py_len snip = Nat.min 50 (py_len u)
                   /\ String.prefix snip u = true)
  /\ (py_any_in conversion_keywords (lower u) = false ->
      conversion_indicators m' = conversion_indicators m).
Proof.
  cbv zeta. unfold track_conversation. simpl.
  split; [reflexivity|].
  repeat split; intro H; rewrite H; try reflexivity.
  exists (py_slice_to 50 u). split; [reflexivity|].
  split; [apply py_slice_to_len|apply py_slice_to_prefix].
Qed.

(** C9: [track_conversation] never inspects [bot_response]. *)
Theorem track_conversation_ignores_response (u r1 r2 : string) (m : metrics) :
  track_conversation u r1 m = track_conversation u r2 m.
Proof. reflexivity. Qed.

Ltac destruct_if :=
  match goal with |- context [if ?b then _ else _] => destruct b end.

Lemma track_conversation_inv u r m : metrics_inv m -> metrics_inv (track_conversation u r m).
Proof.
  intros [Hs [Hc Hf]]. unfold track_conversation, metrics_inv. simpl.
  split; [|split].
  - destruct_if; rewrite ?length_app; simpl; lia.
  - destruct_if; rewrite ?length_app; simpl; lia.
  - destruct_if; [|exact Hf].
    apply Forall_app. split; [exact Hf|]. constructor; [|constructor].
    rewrite py_slice_to_len. lia.
Qed.

Lemma track_all_inv calls m : metrics_inv m -> metrics_inv (track_all calls m).
Proof.
  revert m. induction calls as [|[u r] calls IH]; intros m Hm; simpl; [exact Hm|].
  apply IH. apply track_conversation_inv. exact Hm.
Qed.

(** C10: from a fresh AnalyticsAgent, after any sequence of
    [track_conversation] calls, [total_messages] bounds the lengths of both
    lists and every conversion snippet has at most 50 characters. *)
Theorem analytics_invariant (calls : list (string * string)) :
  metrics_inv (track_all calls metrics_init).
Proof.
  apply track_all_inv. unfold metrics_inv. simpl. repeat split; try lia. constructor.
Qed.

(** C6: each tool's [handle()] catches every exception raised in its body
    (by a collaborator or while formatting): the caller then receives the
    tool's fixed Spanish error prefix followed by [str(e)], and no
    exception ever leaves [handle()]. *)
Theorem tools_catch_collaborator_errors (t : ProductSearchTool) (u : UserHistoryTool) (s : state) :
  (forall s' e, product_search_body t s = (s', inl e) ->
     product_search_handle t s = (s', inr (product_error_prefix ++ e)))
  /\ (forall s' e, promotion_search_body s = (s', inl e) ->
     promotion_search_handle s = (s', inr (promotion_error_prefix ++ e)))
  /\ (forall s' e, user_history_body u s = (s', inl e) ->
     user_history_handle u s = (s', inr (history_error_prefix ++ e)))
  /\ never_raises (product_search_handle t)
  /\ never_raises promotion_search_handle
  /\ never_raises (user_history_handle u).
Proof.
  unfold product_search_handle, promotion_search_handle, user_history_handle, try_except.
  repeat split; try (intros s' e H; rewrite H; reflexivity);
    apply never_raises_try.
Qed.

Lemma logs_only_none {A} (m : M A) s :
  logs_only (fun _ => false) m -> fst (m s) = s.
Proof.
  intros Hm. destruct (Hm s) as [Hmet [[|ev tl] [Ht Hp]]]; [|discriminate].
  rewrite app_nil_r in Ht. destruct (fst (m s)), s. simpl in *. congruence.
Qed.

(** C8: PromotionSearchTool queries the vector store once, with the
    all-zero vector of dimension 384, limit 10 and the filters
    type=promocion, activa=true (after the QdrantService is constructed;
    if the construction raises there is no query and the error text is
    returned), and an empty result gives the literal "no promotions"
    message. *)
Theorem promotion_search_query (s : state) :
  length neutral_vector = 384
  /\ Forall (fun x => x = 0%float) neutral_vector
  /\ (forall e, qdrant_new E = inl e ->
      promotion_search_handle s
        = (mkState (trace s ++ [EvQdrantNew])%list (agent_metrics s),
           inr (promotion_error_prefix ++ e)))
  /\ (qdrant_new E = inr tt ->
      trace (fst (promotion_search_handle s))
        = (trace s ++ [EvQdrantNew; EvSearch neutral_vector 10 promotion_filters])%list)
  /\ (qdrant_new E = inr tt ->
      search_similar E neutral_vector 10 promotion_filters = inr [] ->
      run promotion_search_handle s = inr no_promotions_msg).
Proof.
  split; [reflexivity|]. split.
  { unfold neutral_vector. apply Forall_forall. intros x Hx.
    apply repeat_spec in Hx. exact Hx. }
  unfold promotion_search_handle, promotion_search_body, try_except, bind, call, run.
  split; [intros e He; rewrite He; reflexivity|].
  split; intros Hq; rewrite Hq; cbn [snd fst trace agent_metrics].
  - destruct (search_similar E neutral_vector 10 promotion_filters) as [e|[|x xs]];
      cbn [trace fst]; try (rewrite <- app_assoc; reflexivity).
    match goal with
    | |- context [mapM format_promotion ?l ?st] =>
      assert (Hn : fst (mapM format_promotion l st) = st)
        by (apply logs_only_none, logs_only_mapM; intro; apply logs_only_pure);
      destruct (mapM format_promotion l st) as [s2 [e|ps]]
    end; simpl in Hn; subst s2; simpl; rewrite <- app_assoc; reflexivity.
  - intros Hr. rewrite Hr. reflexivity.
Qed.

Lemma knowledge_logs msg :
  logs_only (fun ev => negb (is_track_event ev)) (knowledge_handle_message_fallback msg).
Proof.
  assert (HW : forall ev, tool_event_ok ev = true -> negb (is_track_event ev) = true).
  { intros ev. unfold tool_event_ok. destruct (is_track_event ev), (is_tool_event ev); auto. }
  unfold knowledge_handle_message_fallback.
  apply logs_only_try; [|auto with tools].
  destruct (_ || _); apply logs_only_bind; auto with tools; intros _.
  - exact (logs_only_weaken _ _ _ HW promotion_search_handle_logs).
  - exact (logs_only_weaken _ _ _ HW (product_search_handle_logs _)).
Qed.

Lemma filter_track_none tail :
  forallb (fun ev => negb (is_track_event ev)) tail = true -> filter is_track_event tail = [].
Proof.
  induction tail as [|ev tl IH]; [reflexivity|].
  simpl. destruct (is_track_event ev); simpl; [discriminate|exact IH].
Qed.

(** C5: a turn handled without an exception calls [track_conversation]
    exactly twice, first with "" (before the sub-agents are consulted)
    and then with the final LLM response, so [total_messages] grows by 2. *)
Theorem handle_user_message_tracks_twice (msg final : string) (s s' : state) :
  handle_user_message_body msg s = (s', inr final) ->
  handle_user_message msg s = (s', inr final)
  /\ (exists tail, trace s' = (trace s ++ EvTrack msg "" :: tail)%list)
  /\ filter is_track_event (trace s')
     = (filter is_track_event (trace s) ++ [EvTrack msg ""; EvTrack msg final])%list
  /\ total_messages (agent_metrics s') = (total_messages (agent_metrics s) + 2)%Z.
Proof.
  intros Hb. split.
  { unfold handle_user_message, try_except. rewrite Hb. reflexivity. }
  unfold handle_user_message_body, bind, track_m, call, ret in Hb.
  set (s1 := mkState (trace s ++ [EvTrack msg ""])%list
                     (track_conversation msg "" (agent_metrics s))) in Hb.
  destruct (knowledge_logs msg s1) as [Hmet [tail [Ht Hp]]].
  destruct (knowledge_handle_message_fallback msg s1) as [s2 [e|kr]];
    [discriminate|].
  destruct (llm_response_async E _) as [e|fr]; [discriminate|].
  injection Hb as <- <-. simpl in Hmet, Ht |- *. rewrite Ht.
  split; [|split].
  - exists (tail ++ [EvLLM (context_prompt msg kr (sales_handle_message_fallback msg));
                     EvTrack msg fr])%list.
    rewrite <- !app_assoc. reflexivity.
  - rewrite !filter_app, (filter_track_none tail Hp). simpl.
    rewrite <- !app_assoc. reflexivity.
  - rewrite Hmet. simpl. lia.
Qed.

(** C7: [handle_user_message] never raises: it returns the LLM's final
    response when the pipeline completes, and the fixed apology string
    when anything in it raises. *)
Theorem handle_user_message_final_or_apology (msg : string) (s : state) :
  let '(s', r) := handle_user_message_body msg s in
  handle_user_message msg s
    = (s', inr (match r with inl _ => apology_msg | inr fr => fr end))
  /\ (forall fr, r = inr fr -> exists prompt, llm_response_async E prompt = inr fr).
Proof.
  unfold handle_user_message, try_except.
  destruct (handle_user_message_body msg s) as [s' r] eqn:Hb.
  split; [destruct r; reflexivity|].
  intros fr ->.
  unfold handle_user_message_body, bind, track_m, call, ret in Hb.
  destruct (knowledge_handle_message_fallback msg _) as [s2 [e|kr]];
    [discriminate|].
  destruct (llm_response_async E _) as [e|fr'] eqn:Hl; [discriminate|].
  injection Hb as _ <-. eauto.
Qed.

(** *** Further properties of the tools *)

Lemma format_product_ok r s :
  payload_ok r = true -> exists v, format_product r s = (s, inr v).
Proof.
  unfold payload_ok, format_product. destruct r; try discriminate.
  destruct (assoc "payload" d) as [[]|] eqn:Hp; try discriminate;
    intros _; simpl; rewrite Hp; unfold py_get;
    repeat (destruct (assoc _ _)); eauto.
Qed.

Lemma format_product_bad r s :
  payload_ok r = false -> format_product r s = (s, inl (format_error r)).
Proof.
  unfold payload_ok, format_product. destruct r; try reflexivity.
  destruct (assoc "payload" d) as [[]|] eqn:Hp; try discriminate;
    intros _; simpl; rewrite Hp; repeat (destruct (assoc _ _)); reflexivity.
Qed.



(** Formatting stops at the first malformed result, with its error. *)
Definition first_bad_error (err : pyval -> exn) (rs : list pyval) (e : exn) : Prop :=
  exists pre r post, rs = (pre ++ r :: post)%list /\ forallb payload_ok pre = true
                     /\ payload_ok r = false /\ e = err r.

Lemma mapM_format {B} (f : pyval -> M B) (err : pyval -> exn)
  (Hok : forall r s, payload_ok r = true -> exists v, f r s = (s, inr v))
  (Hbad : forall r s, payload_ok r = false -> f r s = (s, inl (err r))) :
  forall rs s,
    (forallb payload_ok rs = true ->
     exists l, mapM f rs s = (s, inr l) /\ length l = length rs)
    /\ (forallb payload_ok rs = false ->
        exists e, mapM f rs s = (s, inl e) /\ first_bad_error err rs e).
Proof.
  induction rs as [|r rs IH]; intros s; simpl.
  - split; [intros _; exists []; auto|discriminate].
  - destruct (payload_ok r) eqn:Hr; simpl.
    + destruct (Hok r s Hr) as [v Hv]. destruct (IH s) as [IH1 IH2].
      split.
      * intros Hall. destruct (IH1 Hall) as [l [Hl Hlen]]. exists (v :: l).
        unfold bind. rewrite Hv. cbv beta iota. rewrite Hl. simpl. auto.
      * intros Hall. destruct (IH2 Hall) as [e [He [pre [r' [post [E1 [E2 [E3 E4]]]]]]]].
        exists e. unfold bind. rewrite Hv. cbv beta iota. rewrite He. split; [reflexivity|].
        exists (r :: pre), r', post. subst rs. simpl. rewrite Hr, E2. auto.
    + split; [discriminate|]. intros _. exists (err r).
      unfold bind. rewrite (Hbad r s Hr). split; [reflexivity|].
      exists [], r, rs. auto.
Qed.

(** [ProductSearchTool.handle]: once the services are built and the query
    is embedded, exactly one similarity search is issued, with the query's
    embedding, [max_results] as limit and the category filter; no other
    collaborator is called. *)
Theorem product_search_calls (t : ProductSearchTool) (qe : list float) (s : state) :
  qdrant_new E = inr tt -> embedding_new E = inr tt ->
  encode_query E (query t) = inr qe ->
  trace (fst (product_search_handle t s)) =
    (trace s ++ [EvQdrantNew; EvEmbeddingNew; EvEncode (query t);
                 EvSearch qe (max_results t) (product_filters (category t))])%list.
Proof.
  intros H1 H2 H3.
  unfold product_search_handle, try_except, product_search_body, bind, call.
  rewrite H1, H2, H3. cbv beta iota.
  destruct (search_similar E qe (max_results t) (product_filters (category t)))
    as [e|[|r rs]]; cbv beta iota; cbn [trace fst ret];
    try (rewrite <- !app_assoc; reflexivity).
  match goal with
  | |- context [mapM format_product ?l ?st] =>
    destruct (mapM_format format_product format_error format_product_ok format_product_bad l st)
      as [Hm1 Hm2];
    destruct (forallb payload_ok l) eqn:Hall;
    [destruct (Hm1 eq_refl) as [fr [Hfr _]]; rewrite Hfr
    |destruct (Hm2 eq_refl) as [e [He _]]; rewrite He]
  end; cbn; rewrite <- !app_assoc; reflexivity.
Qed.

(** [ProductSearchTool.handle] on the search results: none gives the
    no-results message; results that are all dicts with dict payloads give
    the [str] of a list with one entry per result; any other result makes
    [.get] raise, and the whole call returns the error text of the first
    malformed result, naming the type of the object [.get] was called on. *)
Theorem product_search_results (t : ProductSearchTool) (qe : list float)
    (rs : list pyval) (s : state) :
  qdrant_new E = inr tt -> embedding_new E = inr tt ->
  encode_query E (query t) = inr qe ->
  search_similar E qe (max_results t) (product_filters (category t)) = inr rs ->
  (rs = [] -> run (product_search_handle t) s = inr no_products_msg)
  /\ (rs <> [] -> forallb payload_ok rs = true ->
      exists l, length l = length rs
                /\ run (product_search_handle t) s = inr (py_repr (PList l)))
  /\ (forallb payload_ok rs = false ->
      exists e, first_bad_error format_error rs e
                /\ run (product_search_handle t) s = inr (product_error_prefix ++ e)).
Proof.
  intros H1 H2 H3 H4.
  unfold run, product_search_handle, try_except, product_search_body, bind, call.
  rewrite H1, H2, H3, H4. cbv beta iota.
  destruct rs as [|r rs].
  - split; [reflexivity|]. split; [congruence|discriminate].
  - split; [discriminate|].
    match goal with
    | |- context [mapM format_product ?l ?st] =>
      destruct (mapM_format format_product format_error format_product_ok format_product_bad l st)
        as [Hm1 Hm2]
    end.
    split.
    + intros _ Hall. destruct (Hm1 Hall) as [fr [Hfr Hlen]]. rewrite Hfr.
      exists fr. split; [exact Hlen|reflexivity].
    + intros Hall. destruct (Hm2 Hall) as [e [He Hfb]]. rewrite He.
      exists e. split; [exact Hfb|reflexivity].
Qed.


(** [UserHistoryTool.handle]: a user without chats gets the no-history
    message, and no message is fetched. *)
Theorem user_history_no_chats (t : UserHistoryTool) (s : state) :
  import_controllers E = inr tt -> chat_ctl_new E = inr tt ->
  get_chats_by_usuario E (user_id t) = inr [] ->
  user_history_handle t s =
    (mkState (trace s ++ [EvImportControllers; EvChatCtlNew; EvGetChats (user_id t)])%list
             (agent_metrics s),
     inr no_history_msg).
Proof.
  intros H1 H2 H3.
  unfold user_history_handle, try_except, user_history_body, bind, call, ret.
  rewrite H1, H2, H3. cbn. rewrite <- !app_assoc. reflexivity.
Qed.

(** [UserHistoryTool.handle]: the messages of the first chat returned are
    fetched once, with the tool's limit and offset 0, and each message's
    content is cut to a prefix of at most 200 characters. *)
Theorem user_history_latest_chat (t : UserHistoryTool) (c : chat) (cs : list chat)
    (ms : list mensaje) (s : state) :
  import_controllers E = inr tt -> chat_ctl_new E = inr tt ->
  get_chats_by_usuario E (user_id t) = inr (c :: cs) ->
  mensaje_ctl_new E = inr tt ->
  get_mensajes_by_chat E (chat_id c) (limit t) 0 = inr ms ->
  user_history_handle t s =
    (mkState (trace s ++ [EvImportControllers; EvChatCtlNew; EvGetChats (user_id t);
                          EvMsgCtlNew; EvGetMensajes (chat_id c) (limit t) 0])%list
             (agent_metrics s),
     inr (py_repr (PList (map format_mensaje ms))))
  /\ Forall (fun m => py_len (py_slice_to 200 (contenido m)) <= 200
                      /\ String.prefix (py_slice_to 200 (contenido m)) (contenido m) = true) ms.
Proof.
  intros H1 H2 H3 H4 H5. split.
  - unfold user_history_handle, try_except, user_history_body, bind, call, ret.
    rewrite H1, H2, H3. cbv beta iota. rewrite H4. cbv beta iota. rewrite H5.
    cbn. rewrite <- !app_assoc. reflexivity.
  - apply Forall_forall. intros m _.
    rewrite py_slice_to_len. split; [lia|apply py_slice_to_prefix].
Qed.

(** *** Further properties of the orchestrator and of the analytics *)

Lemma product_search_handle_steps t : logs_only tool_step_ok (product_search_handle t).
Proof.
  unfold product_search_handle, product_search_body.
  apply logs_only_try; [|auto with tools].
  repeat (apply logs_only_bind; [auto with tools|intro]).
  destruct a2; [auto with tools|].
  apply logs_only_bind; [apply logs_only_mapM; intro; apply logs_only_pure|auto with tools].
Qed.

Lemma promotion_search_handle_steps : logs_only tool_step_ok promotion_search_handle.
Proof.
  unfold promotion_search_handle, promotion_search_body.
  apply logs_only_try; [|auto with tools].
  repeat (apply logs_only_bind; [auto with tools|intro]).
  destruct a0; [auto with tools|].
  apply logs_only_bind; [apply logs_only_mapM; intro; apply logs_only_pure|auto with tools].
Qed.

Lemma tool_steps_counts tail :
  forallb tool_step_ok tail = true ->
  count_tools tail = 0 /\ count_llm tail = 0 /\ filter is_track_event tail = [].
Proof.
  induction tail as [|ev tl IH]; [auto|].
  destruct ev; simpl; try discriminate; exact IH.
Qed.

(** A knowledge consultation: one tool invocation, no LLM call, no
    tracking, the counters untouched, and a result. *)
Lemma knowledge_turn msg s :
  exists k tail,
    knowledge_handle_message_fallback msg s
      = (mkState (trace s ++ tail)%list (agent_metrics s), inr k)
    /\ count_tools tail = 1 /\ count_llm tail = 0 /\ filter is_track_event tail = [].
Proof.
  unfold knowledge_handle_message_fallback. cbv zeta. cbn [query category max_results].
  destruct (_ || _).
  - rewrite try_emit_total by apply never_raises_promotion.
    set (st := mkState (trace s ++ [EvToolPromotion])%list (agent_metrics s)).
    destruct (promotion_search_handle_steps st) as [Hmet [tl [Ht Hp]]].
    destruct (never_raises_promotion st) as [k Hk].
    destruct (promotion_search_handle st) as [[tr mt] r].
    simpl in Hmet, Ht, Hk. subst.
    exists k, (EvToolPromotion :: tl)%list.
    split; [rewrite <- app_assoc; reflexivity|].
    destruct (tool_steps_counts tl Hp) as [H1 [H2 H3]].
    unfold count_tools, count_llm in *; simpl; auto.
  - rewrite try_emit_total by apply never_raises_product.
    set (st := mkState (trace s ++ [EvToolProduct msg None 5])%list (agent_metrics s)).
    destruct (product_search_handle_steps (mkProductSearchTool msg None 5) st)
      as [Hmet [tl [Ht Hp]]].
    destruct (never_raises_product (mkProductSearchTool msg None 5) st) as [k Hk].
    destruct (product_search_handle (mkProductSearchTool msg None 5) st) as [[tr mt] r].
    simpl in Hmet, Ht, Hk. subst.
    exists k, (EvToolProduct msg None 5 :: tl)%list.
    split; [rewrite <- app_assoc; reflexivity|].
    destruct (tool_steps_counts tl Hp) as [H1 [H2 H3]].
    unfold count_tools, count_llm in *; simpl; auto.
Qed.

Lemma prefix_app x b : String.prefix x (x ++ b) = true.
Proof.
  induction x as [|c x IH]; simpl; [destruct b; reflexivity|].
  destruct (ascii_dec c c); [exact IH|contradiction].
Qed.

Lemma py_in_prefix x y : String.prefix x y = true -> py_in x y = true.
Proof. intros H. destruct y; cbn [py_in]; rewrite H; reflexivity. Qed.

Lemma py_in_app_r x a y : py_in x y = true -> py_in x (a ++ y) = true.
Proof.
  intros H. induction a as [|c a IH]; simpl; [exact H|].
  rewrite IH. apply orb_true_r.
Qed.

Ltac solve_py_in :=
  repeat (first [apply py_in_prefix; apply prefix_app | apply py_in_app_r]).

(** [MainBaekhoAgent.handle_user_message]: every turn, whatever the
    collaborators do, invokes exactly one tool and calls the LLM exactly
    once. *)
Theorem handle_user_message_one_tool_one_llm (msg : string) (s : state) :
  exists tail, trace (fst (handle_user_message msg s)) = (trace s ++ tail)%list
    /\ count_tools tail = 1 /\ count_llm tail = 1.
Proof.
  unfold handle_user_message, try_except, handle_user_message_body, bind, track_m, call, ret.
  match goal with
  | |- context [knowledge_handle_message_fallback msg ?st] =>
    destruct (knowledge_turn msg st) as [k [tl [Hk [H1 [H2 _]]]]]; rewrite Hk
  end.
  cbv beta iota.
  destruct (llm_response_async E _) as [e|fr]; cbn [trace fst];
    (eexists; split; [rewrite <- !app_assoc; reflexivity|]);
    unfold count_tools, count_llm in *; rewrite !filter_app, !length_app; simpl; lia.
Qed.

(** [MainBaekhoAgent.handle_user_message]: the single prompt sent to the
    LLM is built from the user's message, the knowledge agent's answer and
    the sales agent's answer, and contains each of them verbatim. *)
Theorem handle_user_message_prompt (msg : string) (s : state) :
  exists k prompt,
    run (knowledge_handle_message_fallback msg)
        (mkState (trace s ++ [EvTrack msg ""])%list (track_conversation msg "" (agent_metrics s)))
      = inr k
    /\ prompt = context_prompt msg k (sales_handle_message_fallback msg)
    /\ In (EvLLM prompt) (trace (fst (handle_user_message msg s)))
    /\ py_in msg prompt = true /\ py_in k prompt = true
    /\ py_in (sales_handle_message_fallback msg) prompt = true.
Proof.
  unfold handle_user_message, try_except, handle_user_message_body, bind, track_m, call, ret.
  destruct (knowledge_turn msg (mkState (trace s ++ [EvTrack msg ""])%list
                                  (track_conversation msg "" (agent_metrics s))))
    as [k [tl [Hk _]]].
  unfold run. rewrite Hk. cbv beta iota.
  exists k, (context_prompt msg k (sales_handle_message_fallback msg)).
  split; [reflexivity|]. split; [reflexivity|].
  split.
  - destruct (llm_response_async E _) as [e|fr]; cbn [trace fst];
      repeat rewrite in_app_iff; simpl; tauto.
  - unfold context_prompt. repeat split; solve_py_in.
Qed.

(** [MainBaekhoAgent.handle_user_message]: when the LLM raises on the
    prompt it is sent (the one built from the knowledge agent's answer), the
    turn returns the apology, and only the first tracking call has happened:
    [total_messages] grows by 1, not 2. *)
Theorem handle_user_message_llm_failure (msg : string) (e : exn) (s : state) :
  (forall k, run (knowledge_handle_message_fallback msg)
               (mkState (trace s ++ [EvTrack msg ""])%list
                        (track_conversation msg "" (agent_metrics s))) = inr k ->
   llm_response_async E (context_prompt msg k (sales_handle_message_fallback msg)) = inl e) ->
  run (handle_user_message msg) s = inr apology_msg
  /\ total_messages (agent_metrics (fst (handle_user_message msg s)))
     = (total_messages (agent_metrics s) + 1)%Z
  /\ filter is_track_event (trace (fst (handle_user_message msg s)))
     = (filter is_track_event (trace s) ++ [EvTrack msg ""])%list.
Proof.
  intros Hl.
  unfold run, handle_user_message, try_except, handle_user_message_body, bind, track_m, call, ret.
  destruct (knowledge_turn msg (mkState (trace s ++ [EvTrack msg ""])%list
                                  (track_conversation msg "" (agent_metrics s))))
    as [k [tl [Hk [_ [_ H3]]]]].
  pose proof (Hl k (f_equal snd Hk)) as Hlk.
  rewrite Hk. cbv beta iota. rewrite Hlk. cbn [snd fst trace agent_metrics].
  split; [reflexivity|]. split; [reflexivity|].
  rewrite !filter_app, H3. simpl. rewrite !app_nil_r. reflexivity.
Qed.

(** [AnalyticsAgent.track_conversation] over a sequence of calls:
    [total_messages] counts the calls, [user_satisfaction] holds one
    "positive" per message with a positive indicator, and
    [conversion_indicators] the 50-character heads of the messages with a
    conversion keyword, in call order. *)
Theorem track_all_counts (calls : list (string * string)) (m : metrics) :
  track_all calls m =
    mkMetrics (total_messages m + Z.of_nat (length calls))
      (user_satisfaction m ++
         repeat "positive"
           (length (filter (fun c => py_any_in positive_indicators (lower (fst c))) calls)))
      (conversion_indicators m ++
         map (fun c => py_slice_to 50 (fst c))
           (filter (fun c => py_any_in conversion_keywords (lower (fst c))) calls)).
Proof.
  unfold track_all. revert m.
  induction calls as [|[u r] calls IH]; intros m.
  - destruct m. cbn. rewrite Z.add_0_r, !app_nil_r. reflexivity.
  - cbn [fold_left filter map length fst snd]. rewrite IH.
    unfold track_conversation. cbn [total_messages user_satisfaction conversion_indicators].
    f_equal; [lia| |]; destruct_if; cbn [length repeat map];
      rewrite <- ?app_assoc; reflexivity.
Qed.

End Baekho.

(** ** The metrics object graph (C3) *)

Module PyHeapFacts.
Import PyHeap.

Lemma heap_set_other h i o l : l <> i -> nth_error (heap_set h i o) l = nth_error h l.
Proof.
  revert i l. induction h as [|o' h IH]; intros [|i] [|l] Hne; simpl; auto.
  - contradiction.
Qed.

Lemma heap_set_length h i o : length (heap_set h i o) = length h.
Proof. revert i. induction h as [|o' h IH]; intros [|i]; simpl; auto. Qed.

Lemma agree_alloc h o : agree h (fst (alloc h o)).
Proof. intros l Hl. simpl. apply nth_error_app1. exact Hl. Qed.

Lemma agree_set_beyond h h' i o :
  agree h h' -> length h <= i -> agree h (heap_set h' i o).
Proof.
  intros Ha Hi l Hl. rewrite heap_set_other by lia. apply Ha. exact Hl.
Qed.

Lemma read_strlist_agree h h' v xs :
  agree h h' -> read_strlist h v = Some xs -> read_strlist h' v = Some xs.
Proof.
  intros Ha. unfold read_strlist.
  destruct v as [[z|str|l]|]; try discriminate.
  destruct (nth_error h l) eqn:Hl; try discriminate.
  rewrite Ha; [rewrite Hl; auto|].
  apply nth_error_Some. congruence.
Qed.

Lemma read_metrics_agree h h' m x :
  agree h h' -> read_metrics h m = Some x -> read_metrics h' m = Some x.
Proof.
  intros Ha. unfold read_metrics.
  destruct (nth_error h m) as [o|] eqn:Hm; [|discriminate].
  rewrite Ha by (apply nth_error_Some; congruence). rewrite Hm.
  destruct o as [xs|kvs]; [discriminate|].
  destruct (read_strlist h (dict_lookup kvs "user_satisfaction")) as [sat|] eqn:H1;
    [|destruct (dict_lookup kvs "total_messages") as [[]|]; discriminate].
  destruct (read_strlist h (dict_lookup kvs "conversion_indicators")) as [conv|] eqn:H2;
    [|destruct (dict_lookup kvs "total_messages") as [[]|]; discriminate].
  rewrite (read_strlist_agree h h' _ _ Ha H1), (read_strlist_agree h h' _ _ Ha H2).
  auto.
Qed.

End PyHeapFacts.

(** C3 (counterexample): [get_metrics] returns [dict.copy()], a shallow
    copy.  Appending to the [user_satisfaction] list reached through the
    returned dict changes the counters of a fresh agent. *)
Lemma get_metrics_nested_aliasing :
  let '(h0, m) := PyHeap.analytics_init [] in
  match PyHeap.get_metrics h0 m with
  | Some (h1, r) =>
    match PyHeap.getitem h1 r "user_satisfaction" with
    | Some (PyHeap.HRef l) =>
      match PyHeap.list_append h1 l (PyHeap.HStr "positive") with
      | Some h2 =>
        PyHeap.read_metrics h0 m = Some metrics_init
        /\ PyHeap.read_metrics h2 m = Some (mkMetrics 0 ["positive"] [])
        /\ PyHeap.read_metrics h2 m <> PyHeap.read_metrics h0 m
      | None => False
      end
    | _ => False
    end
  | None => False
  end.
Proof. vm_compute. split; [reflexivity|]. split; [reflexivity|]. discriminate. Qed.

(** C3 (amended): [get_metrics] leaves the agent's counters unchanged and
    returns a new dict; rebinding or deleting keys of that dict does not
    change the counters, but its values are the very objects the agent
    holds (the two lists are shared, not copied). *)
Theorem get_metrics_shallow_copy (h : PyHeap.heap) (m : nat) (x : metrics)
    (h1 : PyHeap.heap) (r : nat) :
  PyHeap.read_metrics h m = Some x ->
  PyHeap.get_metrics h m = Some (h1, r) ->
  PyHeap.read_metrics h1 m = Some x
  /\ r <> m
  /\ (forall k, PyHeap.getitem h1 r k = PyHeap.getitem h m k)
  /\ (forall k v h2, PyHeap.setitem h1 r k v = Some h2 -> PyHeap.read_metrics h2 m = Some x)
  /\ (forall k h2, PyHeap.delitem h1 r k = Some h2 -> PyHeap.read_metrics h2 m = Some x).
Proof.
  intros Hx Hg.
  assert (Hm : m < length h).
  { unfold PyHeap.read_metrics in Hx. apply nth_error_Some.
    destruct (nth_error h m); congruence. }
  unfold PyHeap.get_metrics in Hg.
  destruct (nth_error h m) as [[xs|kvs]|] eqn:Hn; try discriminate.
  injection Hg as <- <-.
  assert (Hr : nth_error (h ++ [PyHeap.ODict kvs])%list (length h) = Some (PyHeap.ODict kvs)).
  { rewrite nth_error_app2 by lia. rewrite Nat.sub_diag. reflexivity. }
  assert (Ha : PyHeap.agree h (h ++ [PyHeap.ODict kvs])%list)
    by exact (PyHeapFacts.agree_alloc h (PyHeap.ODict kvs)).
  split; [exact (PyHeapFacts.read_metrics_agree _ _ _ _ Ha Hx)|].
  split; [simpl; lia|].
  split.
  { intros k. unfold PyHeap.getitem. simpl. rewrite Hr, Hn. reflexivity. }
  split.
  - intros k v h2. unfold PyHeap.setitem. simpl. rewrite Hr. intros Hs.
    injection Hs as <-.
    apply (PyHeapFacts.read_metrics_agree h); [|exact Hx].
    apply PyHeapFacts.agree_set_beyond; [exact Ha|lia].
  - intros k h2. unfold PyHeap.delitem. simpl. rewrite Hr.
    destruct (PyHeap.dict_lookup kvs k); [|discriminate]. intros Hs.
    injection Hs as <-.
    apply (PyHeapFacts.read_metrics_agree h); [|exact Hx].
    apply PyHeapFacts.agree_set_beyond; [exact Ha|lia].
Qed.

(** ** [track_conversation] on the object graph *)

Module PyHeapTrack.
Import PyHeap PyHeapFacts.

Lemma heap_set_same h i o : i < length h -> nth_error (heap_set h i o) i = Some o.
Proof.
  revert i. induction h as [|o' h IH]; intros [|i] Hi; simpl in *; try lia; auto.
  apply IH. lia.
Qed.

Lemma heap_set_id h i o : nth_error h i = Some o -> heap_set h i o = h.
Proof.
  revert i. induction h as [|o' h IH]; intros [|i] Hi; simpl in *; try discriminate.
  - congruence.
  - f_equal. apply IH. exact Hi.
Qed.

Lemma dict_lookup_put_same kvs k v : dict_lookup (dict_put kvs k v) k = Some v.
Proof.
  induction kvs as [|[k' v'] kvs IH]; simpl.
  - rewrite String.eqb_refl. reflexivity.
  - destruct (String.eqb_spec k k') as [->|Hne]; simpl.
    + rewrite String.eqb_refl. reflexivity.
    + apply String.eqb_neq in Hne. rewrite Hne. exact IH.
Qed.

Lemma dict_lookup_put_other kvs k k' v :
  String.eqb k' k = false -> dict_lookup (dict_put kvs k v) k' = dict_lookup kvs k'.
Proof.
  intros Hne. induction kvs as [|[k0 v0] kvs IH]; simpl.
  - rewrite Hne. reflexivity.
  - destruct (String.eqb_spec k k0) as [->|Hk]; simpl.
    + rewrite Hne. reflexivity.
    + destruct (String.eqb k' k0); [reflexivity|exact IH].
Qed.

Lemma strs_of_snoc xs str :
  strs_of (xs ++ [HStr str])%list = option_map (fun l => (l ++ [str])%list) (strs_of xs).
Proof.
  induction xs as [|[z|s0|l] xs IH]; simpl; try reflexivity.
  rewrite IH. destruct (strs_of xs); reflexivity.
Qed.

Lemma read_metrics_at h m kvs t ls lc xs1 xs2 sat conv :
  nth_error h m = Some (ODict kvs) ->
  dict_lookup kvs "total_messages" = Some (HInt t) ->
  dict_lookup kvs "user_satisfaction" = Some (HRef ls) ->
  dict_lookup kvs "conversion_indicators" = Some (HRef lc) ->
  nth_error h ls = Some (OList xs1) -> nth_error h lc = Some (OList xs2) ->
  strs_of xs1 = Some sat -> strs_of xs2 = Some conv ->
  read_metrics h m = Some (mkMetrics t sat conv).
Proof.
  intros Hm Ht Hls Hlc H1 H2 S1 S2.
  unfold read_metrics, read_strlist. rewrite Hm, Ht, Hls, Hlc, H1, H2, S1, S2.
  reflexivity.
Qed.

Lemma read_strlist_ref h l xs :
  read_strlist h (Some (HRef l)) = Some xs ->
  exists ys, nth_error h l = Some (OList ys) /\ strs_of ys = Some xs.
Proof.
  unfold read_strlist. destruct (nth_error h l) as [[ys|]|]; try discriminate.
  intros H. exists ys. auto.
Qed.

Lemma read_metrics_inv h m kvs ls lc x :
  nth_error h m = Some (ODict kvs) ->
  dict_lookup kvs "user_satisfaction" = Some (HRef ls) ->
  dict_lookup kvs "conversion_indicators" = Some (HRef lc) ->
  read_metrics h m = Some x ->
  exists xs1 xs2,
    dict_lookup kvs "total_messages" = Some (HInt (total_messages x))
    /\ nth_error h ls = Some (OList xs1) /\ nth_error h lc = Some (OList xs2)
    /\ strs_of xs1 = Some (user_satisfaction x) /\ strs_of xs2 = Some (conversion_indicators x).
Proof.
  intros Hm Hls Hlc Hx.
  unfold read_metrics in Hx. rewrite Hm, Hls, Hlc in Hx.
  destruct (dict_lookup kvs "total_messages") as [[t| |]|];
  destruct (read_strlist h (Some (HRef ls))) as [sat|] eqn:R1;
  destruct (read_strlist h (Some (HRef lc))) as [conv|] eqn:R2; try discriminate.
  injection Hx as <-.
  destruct (read_strlist_ref h ls sat R1) as [xs1 [H1 S1]].
  destruct (read_strlist_ref h lc conv R2) as [xs2 [H2 S2]].
  exists xs1, xs2. simpl. auto 10.
Qed.

(** One optional [.append] on a list reached through the dict. *)
Lemma maybe_append h m kvs key l xs (b : bool) str :
  nth_error h m = Some (ODict kvs) -> dict_lookup kvs key = Some (HRef l) ->
  nth_error h l = Some (OList xs) ->
  (if b then match getitem h m key with
             | Some (HRef l') => list_append h l' (HStr str)
             | _ => None
             end
   else Some h)
  = Some (heap_set h l (OList (if b then (xs ++ [HStr str])%list else xs))).
Proof.
  intros Hm Hk Hl. destruct b.
  - unfold getitem, list_append. rewrite Hm, Hk, Hl. reflexivity.
  - rewrite heap_set_id by exact Hl. reflexivity.
Qed.

Lemma strs_of_maybe xs sat (b : bool) str :
  strs_of xs = Some sat ->
  strs_of (if b then (xs ++ [HStr str])%list else xs)
  = Some (if b then (sat ++ [str])%list else sat).
Proof. intros H. destruct b; [rewrite strs_of_snoc, H|exact H]; reflexivity. Qed.

(** [track_conversation] on a well-formed graph: it succeeds, reads as
    the record-level [track_conversation], keeps the shape, and touches no
    object other than the dict and its two lists. *)
Lemma track_heap_spec lower h m ls lc x u r :
  metrics_wf h m ls lc -> read_metrics h m = Some x ->
  exists h', track_conversation_heap lower h m u r = Some h'
    /\ read_metrics h' m = Some (track_conversation lower u r x)
    /\ metrics_wf h' m ls lc
    /\ length h' = length h
    /\ (forall l, l <> m -> l <> ls -> l <> lc -> nth_error h' l = nth_error h l).
Proof.
  intros [kvs [Hm [Hls [Hlc [N1 [N2 N3]]]]]] Hx.
  destruct (read_metrics_inv h m kvs ls lc x Hm Hls Hlc Hx)
    as [xs1 [xs2 [Ht [H1 [H2 [S1 S2]]]]]].
  assert (Lm : m < length h) by (apply nth_error_Some; congruence).
  assert (Lls : ls < length h) by (apply nth_error_Some; congruence).
  assert (Llc : lc < length h) by (apply nth_error_Some; congruence).
  set (t := total_messages x) in *.
  set (kvs1 := dict_put kvs "total_messages" (HInt (t + 1))).
  set (h1 := heap_set h m (ODict kvs1)).
  assert (Hm1 : nth_error h1 m = Some (ODict kvs1)) by (apply heap_set_same; exact Lm).
  assert (H11 : nth_error h1 ls = Some (OList xs1)) by (unfold h1; rewrite heap_set_other; auto).
  assert (H12 : nth_error h1 lc = Some (OList xs2)) by (unfold h1; rewrite heap_set_other; auto).
  assert (Ht1 : dict_lookup kvs1 "total_messages" = Some (HInt (t + 1)))
    by apply dict_lookup_put_same.
  assert (Hls1 : dict_lookup kvs1 "user_satisfaction" = Some (HRef ls))
    by (unfold kvs1; rewrite dict_lookup_put_other by reflexivity; exact Hls).
  assert (Hlc1 : dict_lookup kvs1 "conversion_indicators" = Some (HRef lc))
    by (unfold kvs1; rewrite dict_lookup_put_other by reflexivity; exact Hlc).
  set (bp := py_any_in positive_indicators (lower u)).
  set (bc := py_any_in conversion_keywords (lower u)).
  set (xs1' := if bp then (xs1 ++ [HStr "positive"])%list else xs1).
  set (h2 := heap_set h1 ls (OList xs1')).
  assert (Hm2 : nth_error h2 m = Some (ODict kvs1)) by (unfold h2; rewrite heap_set_other; auto).
  assert (H22 : nth_error h2 lc = Some (OList xs2)) by (unfold h2; rewrite heap_set_other; auto).
  set (xs2' := if bc then (xs2 ++ [HStr (py_slice_to 50 u)])%list else xs2).
  set (h3 := heap_set h2 lc (OList xs2')).
  assert (Len1 : length h1 = length h) by apply heap_set_length.
  assert (Len2 : length h2 = length h) by (unfold h2; rewrite heap_set_length; exact Len1).
  assert (Len3 : length h3 = length h) by (unfold h3; rewrite heap_set_length; exact Len2).
  assert (Hm3 : nth_error h3 m = Some (ODict kvs1)) by (unfold h3; rewrite heap_set_other; auto).
  assert (H31 : nth_error h3 ls = Some (OList xs1'))
    by (unfold h3; rewrite heap_set_other by auto; apply heap_set_same; lia).
  assert (H32 : nth_error h3 lc = Some (OList xs2')) by (apply heap_set_same; lia).
  exists h3. split; [|split; [|split; [|split]]].
  - unfold track_conversation_heap, getitem at 1. rewrite Hm, Ht.
    unfold setitem. rewrite Hm. fold kvs1 h1. fold bp bc.
    match goal with
    | |- match ?e with Some _ => _ | None => None end = _ =>
      replace e with (Some h2)
        by (symmetry; exact (maybe_append h1 m kvs1 "user_satisfaction" ls xs1 bp
                               "positive" Hm1 Hls1 H11))
    end.
    exact (maybe_append h2 m kvs1 "conversion_indicators" lc xs2 bc _ Hm2 Hlc1 H22).
  - destruct x as [t0 sat conv]. unfold track_conversation. fold bp bc.
    apply (read_metrics_at h3 m kvs1 (t0 + 1) ls lc xs1' xs2'); auto.
    + apply strs_of_maybe. exact S1.
    + apply strs_of_maybe. exact S2.
  - exists kvs1. auto 10.
  - exact Len3.
  - intros l Hl1 Hl2 Hl3. unfold h3, h2, h1. rewrite !heap_set_other by auto. reflexivity.
Qed.

End PyHeapTrack.

(** [AnalyticsAgent.track_conversation] on the dict and lists built by
    [__init__]: it never raises, has the effect of the record-level model
    on the counters, keeps the shape, and changes no other object. *)
Theorem track_conversation_heap_refines (lower : string -> string) (h : PyHeap.heap)
    (m ls lc : nat) (x : metrics) (u r : string) :
  PyHeap.metrics_wf h m ls lc -> PyHeap.read_metrics h m = Some x ->
  exists h', track_conversation_heap lower h m u r = Some h'
    /\ PyHeap.read_metrics h' m = Some (track_conversation lower u r x)
    /\ PyHeap.metrics_wf h' m ls lc
    /\ (forall l, l <> m -> l <> ls -> l <> lc -> nth_error h' l = nth_error h l).
Proof.
  intros Hwf Hx.
  destruct (PyHeapTrack.track_heap_spec lower h m ls lc x u r Hwf Hx)
    as [h' [H1 [H2 [H3 [_ H5]]]]].
  exists h'. auto.
Qed.

(** [get_metrics] is not a snapshot: after a later [track_conversation],
    the returned dict still shows the old [total_messages] but, through the
    shared lists, the new [user_satisfaction] and [conversion_indicators]. *)
Theorem get_metrics_not_snapshot (lower : string -> string) (h : PyHeap.heap)
    (m ls lc : nat) (x : metrics) (h1 : PyHeap.heap) (c : nat) (u r : string) :
  PyHeap.metrics_wf h m ls lc -> PyHeap.read_metrics h m = Some x ->
  PyHeap.get_metrics h m = Some (h1, c) ->
  exists h2, track_conversation_heap lower h1 m u r = Some h2
    /\ PyHeap.read_metrics h2 c
       = Some (mkMetrics (total_messages x)
                 (user_satisfaction (track_conversation lower u r x))
                 (conversion_indicators (track_conversation lower u r x))).
Proof.
  intros Hwf Hx Hg.
  destruct Hwf as [kvs [Hm [Hls [Hlc [N1 [N2 N3]]]]]].
  destruct (PyHeapTrack.read_metrics_inv h m kvs ls lc x Hm Hls Hlc Hx)
    as [ys1 [ys2 [Ht [Y1 [Y2 _]]]]].
  unfold PyHeap.get_metrics in Hg. rewrite Hm in Hg. injection Hg as <- <-.
  assert (Ha : PyHeap.agree h (h ++ [PyHeap.ODict kvs])%list)
    by exact (PyHeapFacts.agree_alloc h (PyHeap.ODict kvs)).
  assert (Lm : m < length h) by (apply nth_error_Some; congruence).
  assert (Lls : ls < length h) by (apply nth_error_Some; congruence).
  assert (Llc : lc < length h) by (apply nth_error_Some; congruence).
  assert (Hwf1 : PyHeap.metrics_wf (h ++ [PyHeap.ODict kvs])%list m ls lc).
  { exists kvs. rewrite Ha by exact Lm. auto 10. }
  destruct (PyHeapTrack.track_heap_spec lower _ m ls lc x u r Hwf1
              (PyHeapFacts.read_metrics_agree _ _ m x Ha Hx))
    as [h2 [E [R [[kvs2 [Hm2 [Hls2 [Hlc2 _]]]] [L Hother]]]]].
  exists h2. split; [exact E|].
  destruct (PyHeapTrack.read_metrics_inv h2 m kvs2 ls lc _ Hm2 Hls2 Hlc2 R)
    as [xs1 [xs2 [_ [H1 [H2 [S1 S2]]]]]].
  apply (PyHeapTrack.read_metrics_at h2 (length h) kvs (total_messages x) ls lc xs1 xs2);
    auto.
  rewrite Hother by lia. rewrite nth_error_app2, Nat.sub_diag by lia. reflexivity.
Qed.

(** ** Witnesses and examples *)

(** The hypotheses of [get_metrics_shallow_copy] hold for a fresh agent. *)
Lemma get_metrics_shallow_copy_witness :
  let h := fst (PyHeap.analytics_init []) in
  match PyHeap.get_metrics h 2 with
  | Some (h1, r) =>
    PyHeap.read_metrics h 2 = Some metrics_init
    /\ PyHeap.read_metrics h1 2 = Some metrics_init /\ r <> 2
  | None => False
  end.
Proof.
  cbv zeta.
  assert (Hx : PyHeap.read_metrics (fst (PyHeap.analytics_init [])) 2 = Some metrics_init)
    by (vm_compute; reflexivity).
  destruct (PyHeap.get_metrics (fst (PyHeap.analytics_init [])) 2) as [[h1 r]|] eqn:Hg.
  - destruct (get_metrics_shallow_copy _ 2 metrics_init h1 r Hx Hg) as [H1 [H2 _]].
    split; [exact Hx|]. split; [exact H1|exact H2].
  - vm_compute in Hg. discriminate.
Defined.

(** A turn that completes: the LLM answers and the counter reaches 2. *)
Lemma handle_user_message_tracks_twice_witness :
  exists s',
    handle_user_message_body ascii_lower demo_repr demo_env
      "Quiero comprar un uniforme" demo_state = (s', inr "Hola")
    /\ total_messages (agent_metrics s') = 2%Z.
Proof.
  exists (fst (handle_user_message_body ascii_lower demo_repr demo_env
                 "Quiero comprar un uniforme" demo_state)).
  assert (Hb : handle_user_message_body ascii_lower demo_repr demo_env
                 "Quiero comprar un uniforme" demo_state
               = (fst (handle_user_message_body ascii_lower demo_repr demo_env
                         "Quiero comprar un uniforme" demo_state), inr "Hola"))
    by (vm_compute; reflexivity).
  split; [exact Hb|].
  destruct (handle_user_message_tracks_twice ascii_lower demo_repr demo_env
              "Quiero comprar un uniforme" "Hola" demo_state _ Hb) as [_ [_ [_ Ht]]].
  rewrite Ht. reflexivity.
Defined.

(** Spec example: a discount question goes to the promotion search. *)
Example knowledge_descuento_example :
  knowledge_handle_message_fallback ascii_lower demo_repr demo_env
    "¿Tienen descuento en uniformes?" demo_state
  = (mkState [EvToolPromotion; EvQdrantNew;
              EvSearch neutral_vector 10 promotion_filters] metrics_init,
     inr no_promotions_msg).
Proof. vm_compute. reflexivity. Qed.

(** Spec example: "Busco un cinturon negro" gets the matching-uniform
    suggestion. *)
Example sales_cinturon_example :
  sales_handle_message_fallback ascii_lower "Busco un cinturon negro"
  = "Sugerencias adicionales: ¿Te interesaría ver nuestros uniformes a juego?".
Proof. reflexivity. Qed.

(** Spec example: an empty result set gives the no-results message. *)
Example product_empty_example :
  run (product_search_handle demo_repr demo_env (mkProductSearchTool "kimono" None 5)) demo_state
  = inr no_products_msg.
Proof. vm_compute. reflexivity. Qed.

(** A failing vector store is reported with the tool's prefix. *)
Example product_down_example :
  run (product_search_handle demo_repr demo_env_down (mkProductSearchTool "kimono" None 5))
      demo_state
  = inr "Error ejecutando búsqueda: Connection refused".
Proof. vm_compute. reflexivity. Qed.

(** Two turns count four messages. *)
Example two_turns_example :
  total_messages (agent_metrics
    (fst (handle_user_message ascii_lower demo_repr demo_env "gracias"
           (fst (handle_user_message ascii_lower demo_repr demo_env "hola" demo_state)))))
  = 4%Z.
Proof. vm_compute. reflexivity. Qed.

(** The calls of a search for "kimono" in the "cinturones" category. *)
Lemma product_search_calls_witness :
  trace (fst (product_search_handle demo_repr demo_env
                (mkProductSearchTool "kimono" (Some "cinturones") 5) demo_state))
  = [EvQdrantNew; EvEmbeddingNew; EvEncode "kimono";
     EvSearch [0%float] 5 (product_filters (Some "cinturones"))].
Proof.
  apply (product_search_calls demo_repr demo_env
           (mkProductSearchTool "kimono" (Some "cinturones") 5) [0%float] demo_state);
    reflexivity.
Defined.

(** No hit: the no-results message. *)
Lemma product_search_results_witness :
  run (product_search_handle demo_repr demo_env (mkProductSearchTool "kimono" None 5))
      demo_state
  = inr no_products_msg.
Proof.
  apply (proj1 (product_search_results demo_repr demo_env
                  (mkProductSearchTool "kimono" None 5) [0%float] [] demo_state
                  eq_refl eq_refl eq_refl eq_refl)).
  reflexivity.
Defined.


(** A user without chats. *)
Lemma user_history_no_chats_witness :
  run (user_history_handle demo_repr (fun _ => "") demo_env (mkUserHistoryTool 5 10))
      demo_state
  = inr no_history_msg.
Proof.
  unfold run.
  rewrite (user_history_no_chats demo_repr (fun _ => "") demo_env
             (mkUserHistoryTool 5 10) demo_state eq_refl eq_refl eq_refl).
  reflexivity.
Defined.

(** A user with two chats: the first one, chat 7, is read. *)
Lemma user_history_latest_chat_witness :
  last (trace (fst (user_history_handle demo_repr (fun _ => "") demo_env_history
                      (mkUserHistoryTool 5 10) demo_state))) EvChatCtlNew
  = EvGetMensajes 7 10 0.
Proof.
  rewrite (proj1 (user_history_latest_chat demo_repr (fun _ => "") demo_env_history
                    (mkUserHistoryTool 5 10) (mkChat 7) [mkChat 3]
                    [mkMensaje "user" "Hola" None] demo_state
                    eq_refl eq_refl eq_refl eq_refl eq_refl)).
  reflexivity.
Defined.

(** An unreachable LLM: the apology. *)
Lemma handle_user_message_llm_failure_witness :
  run (handle_user_message ascii_lower demo_repr demo_env_llm_down "hola") demo_state
  = inr apology_msg.
Proof.
  apply (proj1 (handle_user_message_llm_failure ascii_lower demo_repr demo_env_llm_down
                  "hola" "timeout" demo_state (fun _ _ => eq_refl))).
Defined.

(** [track_conversation] on the graph built by [__init__]. *)
Lemma track_conversation_heap_refines_witness :
  exists h', track_conversation_heap ascii_lower (fst (PyHeap.analytics_init [])) 2
               "Quiero comprar, gracias" "ok" = Some h'
    /\ PyHeap.read_metrics h' 2
       = Some (mkMetrics 1 ["positive"] ["Quiero comprar, gracias"]).
Proof.
  assert (Hwf : PyHeap.metrics_wf (fst (PyHeap.analytics_init [])) 2 0 1).
  { eexists. split; [reflexivity|]. split; [reflexivity|]. split; [reflexivity|].
    repeat split; discriminate. }
  destruct (track_conversation_heap_refines ascii_lower _ 2 0 1 metrics_init
              "Quiero comprar, gracias" "ok" Hwf eq_refl) as [h' [E [R _]]].
  exists h'. split; [exact E|]. rewrite R. vm_compute. reflexivity.
Defined.

(** The copy taken before a turn shows the new lists but the old total. *)
Lemma get_metrics_not_snapshot_witness :
  let h := fst (PyHeap.analytics_init []) in
  match PyHeap.get_metrics h 2 with
  | Some (h1, c) =>
    exists h2, track_conversation_heap ascii_lower h1 2 "Quiero comprar, gracias" "ok"
                 = Some h2
      /\ PyHeap.read_metrics h2 c
         = Some (mkMetrics 0 ["positive"] ["Quiero comprar, gracias"])
  | None => False
  end.
Proof.
  cbv zeta.
  assert (Hwf : PyHeap.metrics_wf (fst (PyHeap.analytics_init [])) 2 0 1).
  { eexists. split; [reflexivity|]. split; [reflexivity|]. split; [reflexivity|].
    repeat split; discriminate. }
  destruct (PyHeap.get_metrics (fst (PyHeap.analytics_init [])) 2) as [[h1 c]|] eqn:Hg.
  - destruct (get_metrics_not_snapshot ascii_lower _ 2 0 1 metrics_init h1 c
                "Quiero comprar, gracias" "ok" Hwf eq_refl Hg) as [h2 [E R]].
    exists h2. split; [exact E|]. rewrite R. vm_compute. reflexivity.
  - vm_compute in Hg. discriminate.
Defined.

(** [user_msg[:50]] counts code points: the snippet of a message with
    accented letters keeps 50 characters (52 bytes). *)
Example slice_non_ascii_example :
  py_slice_to 50 "¿Cuál es el precio del uniforme de taekwondo para niños pequeños?"
  = "¿Cuál es el precio del uniforme de taekwondo para "
  /\ py_len "¿Cuál es el precio del uniforme de taekwondo para " = 50.
Proof. split; reflexivity. Qed.

(** A payload that is not a dict: the error names its type, as [str(e)]
    of the [AttributeError] does. *)
Example product_bad_payload_example :
  run (product_search_handle demo_repr
         (mkEnv (inr tt) (inr tt) (fun _ => inr [0%float])
                (fun _ _ _ => inr [PDict [("payload", PStr "x")]])
                (inr tt) (inr tt) (fun _ => inr []) (inr tt) (fun _ _ _ => inr [])
                (fun _ => inr "Hola"))
         (mkProductSearchTool "kimono" None 5)) demo_state
  = inr "Error ejecutando búsqueda: 'str' object has no attribute 'get'".
Proof. vm_compute. reflexivity. Qed.
